(** * servicectl: service-manager detection and start/stop/restart control

    A shallow embedding of [tools/omnissm/pkg/servicectl/service.go].

    The Go package talks to the operating system through five library
    calls only: [os.Stat], [exec.LookPath], [exec.Command(..).Output()],
    [exec.Command(..).CombinedOutput()] and [time.Sleep].  The embedding
    keeps the Go functions as they are written and runs them in a small
    reader/state monad: the reader part is the operating system (an oracle
    that answers each call, possibly differently as the history grows), the
    state part is the journal of the calls made so far together with a
    logical clock. *)

From Stdlib Require Import String Ascii List ZArith Bool Lia.
From Stdlib Require Import DecimalString.
Import ListNotations.
Local Open Scope string_scope.
Local Open Scope Z_scope.

(** ** Go values *)

(** Errors handed back by [os] and [os/exec].  [ExitError] is
    [*exec.ExitError] for a process that ran and exited unsuccessfully (it
    carries the process state only); every other failure is kept by its
    message. *)
Inductive oserror : Type :=
| ExitError (status : Z)
| SysError (msg : string).

(** Values of Go's [error] interface that the package can produce:
    an error of the operating system, or one of the three constructors of
    [github.com/pkg/errors] the package uses. *)
Inductive error : Type :=
| Os (e : oserror)
| Wrapf (cause : error) (msg : string)
| WithStack (cause : error)
| Errorf (msg : string).

Definition decimal (n : Z) : string := NilZero.string_of_int (Z.to_int n).

(** The [Error()] method: [Wrapf] prefixes its message to the cause's,
    [WithStack] leaves the message alone. *)
Fixpoint Error (e : error) : string :=
  match e with
  | Os (ExitError n) => "exit status " ++ decimal n
  | Os (SysError m) => m
  | Wrapf c m => m ++ ": " ++ Error c
  | WithStack c => Error c
  | Errorf m => m
  end.

(** [strings.Contains s substr]. *)
Fixpoint Contains (s substr : string) : bool :=
  String.prefix substr s ||
  match s with
  | EmptyString => false
  | String _ s' => Contains s' substr
  end.

(** [time.Duration] counts nanoseconds. *)
Definition Millisecond : Z := 1000000.

(** ** The operating system *)

(** A call to the operating system together with what it answered. *)
Inductive Event : Type :=
| EvStat (path : string) (err : option oserror)
| EvLookPath (file : string) (res : oserror + string)
| EvOutput (cmd : string) (args : list string)
           (out : string) (err : option oserror)
| EvCombinedOutput (cmd : string) (args : list string)
                   (out : string) (err : option oserror)
| EvSleep (d : Z).

(** A journal entry: the event, the time the call was made and the time it
    returned. *)
Record Entry : Type := mkEntry { ev : Event; began : Z; ended : Z }.

Record State : Type := mkState { trace : list Entry; now : Z }.

(** The environment.  Every answer may depend on the journal so far, so
    that the same command can fail once and succeed later.  [sched_latency]
    is the time a call takes on top of its minimum (for [time.Sleep], the
    overrun past the requested duration). *)
Record OS : Type := mkOS {
  fs_stat : list Entry -> string -> option oserror;
  path_lookup : list Entry -> string -> oserror + string;
  proc_output : list Entry -> string -> list string -> string * option oserror;
  proc_combined : list Entry -> string -> list string -> string * option oserror;
  sched_latency : list Entry -> Event -> N
}.

Definition M (A : Type) : Type := OS -> State -> A * State.

Definition ret {A} (a : A) : M A := fun _ s => (a, s).

Definition bind {A B} (c : M A) (k : A -> M B) : M B :=
  fun os s => let (a, s') := c os s in k a os s'.

Declare Scope go_scope.
Delimit Scope go_scope with go.
Notation "x <- c ;; k" := (bind c (fun x => k))
  (at level 61, c at next level, right associativity) : go_scope.
Notation "' p <- c ;; k" := (bind c (fun x => match x with p => k end))
  (at level 61, p pattern, c at next level, right associativity) : go_scope.
Notation "c ;; k" := (bind c (fun _ => k))
  (at level 61, right associativity) : go_scope.
Local Open Scope go_scope.

(** Journal an event that takes at least [least] nanoseconds. *)
Definition emit (os : OS) (e : Event) (least : Z) (s : State) : State :=
  let t := now s + Z.max 0 least + Z.of_N (sched_latency os (trace s) e) in
  {| trace := trace s ++ [mkEntry e (now s) t]; now := t |}.

Definition os_Stat (path : string) : M (option oserror) :=
  fun os s =>
    let r := fs_stat os (trace s) path in
    (r, emit os (EvStat path r) 0 s).

Definition exec_LookPath (file : string) : M (oserror + string) :=
  fun os s =>
    let r := path_lookup os (trace s) file in
    (r, emit os (EvLookPath file r) 0 s).

Definition exec_Output (cmd : string) (args : list string)
  : M (string * option oserror) :=
  fun os s =>
    let r := proc_output os (trace s) cmd args in
    (r, emit os (EvOutput cmd args (fst r) (snd r)) 0 s).

Definition exec_CombinedOutput (cmd : string) (args : list string)
  : M (string * option oserror) :=
  fun os s =>
    let r := proc_combined os (trace s) cmd args in
    (r, emit os (EvCombinedOutput cmd args (fst r) (snd r)) 0 s).

Definition time_Sleep (d : Z) : M unit :=
  fun os s => (tt, emit os (EvSleep d) d s).

(** ** The package *)

Class Service (T : Type) : Type := {
  Start : T -> M (option error);
  Stop : T -> M (option error);
  Restart : T -> M (option error)
}.

Definition run (cmd : string) (args : list string)
  : M (string * option error) :=
  '(out, err) <- exec_CombinedOutput cmd args ;;
  match err with
  | Some e => ret (out, Some (Wrapf (Os e) (cmd ++ " command failed")))
  | None => ret (out, None)
  end.

Record upstart : Type := mkUpstart { upstart_cmd : string; upstart_name : string }.

Definition upstart_Start (u : upstart) : M (option error) :=
  '(_, err) <- run (upstart_cmd u) ["start"; upstart_name u] ;;
  ret err.

Definition upstart_Stop (u : upstart) : M (option error) :=
  '(_, err) <- run (upstart_cmd u) ["stop"; upstart_name u] ;;
  ret err.

Definition upstart_Restart (u : upstart) : M (option error) :=
  _ <- upstart_Stop u ;;
  time_Sleep (50 * Millisecond) ;;
  upstart_Start u.

Record systemd : Type := mkSystemd { systemd_cmd : string; systemd_name : string }.

Definition systemd_Start (s : systemd) : M (option error) :=
  '(_, err) <- run (systemd_cmd s) ["start"; systemd_name s] ;;
  ret err.

Definition systemd_Stop (s : systemd) : M (option error) :=
  '(_, err) <- run (systemd_cmd s) ["stop"; systemd_name s] ;;
  ret err.

Definition systemd_Restart (s : systemd) : M (option error) :=
  '(_, err) <- run (systemd_cmd s) ["restart"; systemd_name s] ;;
  ret err.

Record sysV : Type := mkSysV { sysV_cmd : string; sysV_name : string }.

Definition sysV_Start (s : sysV) : M (option error) :=
  '(_, err) <- run (sysV_cmd s) [sysV_name s; "start"] ;;
  ret err.

Definition sysV_Stop (s : sysV) : M (option error) :=
  '(_, err) <- run (sysV_cmd s) [sysV_name s; "stop"] ;;
  ret err.

Definition sysV_Restart (s : sysV) : M (option error) :=
  err <- sysV_Stop s ;;
  match err with
  | Some e => ret (Some e)
  | None =>
      time_Sleep (50 * Millisecond) ;;
      sysV_Start s
  end.

#[export] Instance upstart_Service : Service upstart :=
  {| Start := upstart_Start; Stop := upstart_Stop; Restart := upstart_Restart |}.

#[export] Instance systemd_Service : Service systemd :=
  {| Start := systemd_Start; Stop := systemd_Stop; Restart := systemd_Restart |}.

#[export] Instance sysV_Service : Service sysV :=
  {| Start := sysV_Start; Stop := sysV_Stop; Restart := sysV_Restart |}.

(** A value of the interface type [Service]: one of the three pointer
    types that implement it. *)
Inductive ServiceValue : Type :=
| OfSystemd (s : systemd)
| OfUpstart (u : upstart)
| OfSysV (s : sysV).

#[export] Instance ServiceValue_Service : Service ServiceValue :=
  {| Start v := match v with
                | OfSystemd s => Start s
                | OfUpstart u => Start u
                | OfSysV s => Start s
                end;
     Stop v := match v with
               | OfSystemd s => Stop s
               | OfUpstart u => Stop u
               | OfSysV s => Stop s
               end;
     Restart v := match v with
                  | OfSystemd s => Restart s
                  | OfUpstart u => Restart u
                  | OfSysV s => Restart s
                  end |}.

(** The pair [(Service, error)] returned by [New]: exactly one side is
    non-nil on every path. *)
Inductive result : Type :=
| Ok (v : ServiceValue)
| Err (e : error).

Definition isSystemd : M bool :=
  err <- os_Stat "/run/systemd/system" ;;
  match err with
  | None => ret true
  | Some _ => ret false
  end.

Definition isSysV : M bool :=
  err <- os_Stat "/usr/sbin/service" ;;
  match err with
  | None => ret true
  | Some _ => ret false
  end.

Definition isUpstart : M bool :=
  err <- os_Stat "/sbin/upstart-udev-bridge" ;;
  match err with
  | None => ret true
  | Some _ =>
      err <- os_Stat "/sbin/init" ;;
      match err with
      | None =>
          '(out, err) <- exec_Output "/sbin/init" ["--version"] ;;
          match err with
          | None =>
              if Contains out "init (upstart" then ret true else ret false
          | Some _ => ret false
          end
      | Some _ => ret false
      end
  end.

Definition New (name : string) : M result :=
  b <- isSystemd ;;
  if b then
    r <- exec_LookPath "systemctl" ;;
    match r with
    | inl err => ret (Err (WithStack (Os err)))
    | inr cmd => ret (Ok (OfSystemd (mkSystemd cmd name)))
    end
  else
    b <- isUpstart ;;
    if b then
      r <- exec_LookPath "initctl" ;;
      match r with
      | inl err => ret (Err (WithStack (Os err)))
      | inr cmd => ret (Ok (OfUpstart (mkUpstart cmd name)))
      end
    else
      b <- isSysV ;;
      if b then
        r <- exec_LookPath "service" ;;
        match r with
        | inl err => ret (Err (WithStack (Os err)))
        | inr cmd => ret (Ok (OfSysV (mkSysV cmd name)))
        end
      else
        ret (Err (Errorf "cannot detect service manager")).

(** ** Reading the journal *)

(** The calls an operation made: what the journal gained between the state
    it was started in and the state it left. *)
Definition since (s s' : State) : list Entry :=
  skipn (length (trace s)) (trace s').

(** The argument vector of a subprocess, [argv.(0)] being the command. *)
Definition argv (e : Event) : option (list string) :=
  match e with
  | EvOutput cmd args _ _ => Some (cmd :: args)
  | EvCombinedOutput cmd args _ _ => Some (cmd :: args)
  | _ => None
  end.

Fixpoint spawned (l : list Entry) : list (list string) :=
  match l with
  | [] => []
  | x :: l' =>
      match argv (ev x) with
      | Some v => v :: spawned l'
      | None => spawned l'
      end
  end.

(** The three methods of the interface, as data. *)
Inductive Op : Type := OpStart | OpStop | OpRestart.

Definition perform {T} `{Service T} (o : Op) : T -> M (option error) :=
  match o with
  | OpStart => Start
  | OpStop => Stop
  | OpRestart => Restart
  end.

Definition subcommand (o : Op) : string :=
  match o with
  | OpStart => "start"
  | OpStop => "stop"
  | OpRestart => "restart"
  end.

Definition cmd_of (v : ServiceValue) : string :=
  match v with
  | OfSystemd s => systemd_cmd s
  | OfUpstart u => upstart_cmd u
  | OfSysV s => sysV_cmd s
  end.

Definition name_of (v : ServiceValue) : string :=
  match v with
  | OfSystemd s => systemd_name s
  | OfUpstart u => upstart_name u
  | OfSysV s => sysV_name s
  end.

(** What [run] makes of the error of the subprocess. *)
Definition wrapped (cmd : string) (err : option oserror) : option error :=
  match err with
  | Some e => Some (Wrapf (Os e) (cmd ++ " command failed"))
  | None => None
  end.

(** The journal entry of one [CombinedOutput] call made in state [s]. *)
Definition combined_entry (os : OS) (s : State) (cmd : string)
           (args : list string) : Entry :=
  let r := proc_combined os (trace s) cmd args in
  let e := EvCombinedOutput cmd args (fst r) (snd r) in
  mkEntry e (now s) (now s + Z.max 0 0 + Z.of_N (sched_latency os (trace s) e)).

Definition sleep_entry (os : OS) (s : State) (d : Z) : Entry :=
  mkEntry (EvSleep d) (now s)
          (now s + Z.max 0 d + Z.of_N (sched_latency os (trace s) (EvSleep d))).

(** The state one [CombinedOutput] call, respectively one sleep, leaves. *)
Definition after_combined (os : OS) (s : State) (cmd : string)
           (args : list string) : State :=
  mkState (trace s ++ [combined_entry os s cmd args])
          (ended (combined_entry os s cmd args)).

Definition after_sleep (os : OS) (s : State) (d : Z) : State :=
  mkState (trace s ++ [sleep_entry os s d]) (ended (sleep_entry os s d)).

(** The state one [os.Stat] leaves, and whether it found the path. *)
Definition after_stat (os : OS) (s : State) (path : string) : State :=
  snd (os_Stat path os s).

Definition exists_at (os : OS) (s : State) (path : string) : bool :=
  match fs_stat os (trace s) path with None => true | Some _ => false end.

(** The journal of a restart that reaches its start step: the stop, the
    sleep of 50ms, the start, and at least 50ms (in nanoseconds) between
    the return of the stop and the spawning of the start. *)
Definition stop_pause_start (l : list Entry) (stop start : list string) : Prop :=
  exists y z x,
    l = [y; z; x] /\
    argv (ev y) = Some stop /\
    ev z = EvSleep (50 * Millisecond) /\
    argv (ev x) = Some start /\
    ended y + 50000000 <= began x.

(** Every [Start], every [Stop] and the systemd [Restart] is one call of
    [run] whose output is dropped. *)
Definition run_err (cmd : string) (args : list string) : M (option error) :=
  '(_, err) <- run cmd args ;; ret err.

(** The step of [New] that follows a successful check: resolve the control
    binary and bind the handle. *)
Definition resolve (file : string) (mk : string -> ServiceValue) : M result :=
  r <- exec_LookPath file ;;
  match r with
  | inl err => ret (Err (WithStack (Os err)))
  | inr cmd => ret (Ok (mk cmd))
  end.

(** ** Sample hosts *)

(** A host whose answers do not change over time and whose calls take no
    time beyond their minimum. *)
Definition host (stat : string -> option oserror)
           (look : string -> oserror + string)
           (outp comb : string -> list string -> string * option oserror) : OS :=
  mkOS (fun _ => stat) (fun _ => look) (fun _ => outp) (fun _ => comb)
       (fun _ _ => 0%N).

Definition boot : State := mkState [] 0.

Definition ENOENT : oserror := SysError "no such file or directory".

Definition present (paths : list string) (p : string) : option oserror :=
  if existsb (String.eqb p) paths then None else Some ENOENT.

Definition on_path (file : string) : oserror + string :=
  inr ("/usr/bin/" ++ file).

Definition silent (cmd : string) (args : list string) : string * option oserror :=
  ("", None).

(** Both the systemd and the upstart marker exist. *)
Definition mixed_host : OS :=
  host (present ["/run/systemd/system"; "/sbin/upstart-udev-bridge"; "/sbin/init"])
       on_path silent silent.

(** No marker exists at all. *)
Definition bare_host : OS :=
  host (present []) on_path silent silent.

(** [init --version] names upstart on its standard output and exits with
    status 1; the bridge binary is absent. *)
Definition odd_init_host : OS :=
  host (present ["/sbin/init"]) on_path
       (fun _ _ => ("init (upstart 1.12.1)", Some (ExitError 1))) silent.

(** Every [stop] fails with status 1, everything else succeeds. *)
Definition stop_fails (cmd : string) (args : list string)
  : string * option oserror :=
  if existsb (String.eqb "stop") args
  then ("stop: Unknown instance:", Some (ExitError 1))
  else ("", None).

Definition stop_fails_host : OS :=
  host (present ["/usr/sbin/service"]) on_path silent stop_fails.

(** Every control command prints a diagnostic and exits with status 5. *)
Definition fails_loudly (cmd : string) (args : list string)
  : string * option oserror :=
  ("Failed to start agent.service: Unit agent.service not found.",
   Some (ExitError 5)).

Definition failing_host : OS :=
  host (present ["/run/systemd/system"]) on_path silent fails_loudly.

(** ** More ways to read the journal *)

Definition is_sleep (e : Event) : bool :=
  match e with EvSleep _ => true | _ => false end.

Definition is_lookup (e : Event) : bool :=
  match e with EvLookPath _ _ => true | _ => false end.

(** The events a control operation may journal: a [CombinedOutput] of the
    handle's own binary, or the sleep of 50ms. *)
Definition control_event (v : ServiceValue) (e : Event) : Prop :=
  (exists a out err, e = EvCombinedOutput (cmd_of v) a out err) \/
  e = EvSleep (50 * Millisecond).

(** The events the three checks of [New] may journal: an [os.Stat], or
    [Output()] of [/sbin/init --version]. *)
Definition is_probe (e : Event) : bool :=
  match e with
  | EvStat _ _ => true
  | EvOutput cmd [arg] _ _ => String.eqb cmd "/sbin/init" && String.eqb arg "--version"
  | _ => false
  end.

(** The file [New] resolves on the search path for each variant. *)
Definition binary_of (v : ServiceValue) : string :=
  match v with
  | OfSystemd _ => "systemctl"
  | OfUpstart _ => "initctl"
  | OfSysV _ => "service"
  end.

(** ** More sample hosts *)

Definition ErrNotFound : oserror :=
  SysError "executable file not found in $PATH".

(** The systemd marker and the SysV service binary exist, but [systemctl]
    is not on the search path. *)
Definition no_systemctl_host : OS :=
  host (present ["/run/systemd/system"; "/usr/sbin/service"])
       (fun file => if String.eqb file "systemctl" then inl ErrNotFound
                    else on_path file)
       silent silent.

(** The upstart bridge and the SysV service binary exist, no systemd. *)
Definition upstart_host : OS :=
  host (present ["/sbin/upstart-udev-bridge"; "/usr/sbin/service"])
       on_path silent silent.

(** No bridge binary, but [init --version] names upstart and succeeds. *)
Definition upstart_init_host : OS :=
  host (present ["/sbin/init"; "/usr/sbin/service"]) on_path
       (fun _ _ => ("init (upstart 1.12.1)", None)) silent.

(** ** Basic facts *)

Lemma since_app (s s' : State) (l : list Entry) :
  trace s' = (trace s ++ l)%list -> since s s' = l.
Proof.
  intros E. unfold since. rewrite E.
  rewrite skipn_app, Nat.sub_diag, skipn_all. reflexivity.
Qed.

Lemma since_refl (s : State) : since s s = [].
Proof. apply since_app. now rewrite app_nil_r. Qed.

Lemma spawned_app (l l' : list Entry) :
  spawned (l ++ l') = (spawned l ++ spawned l')%list.
Proof.
  induction l as [|x l IH]; simpl; [reflexivity|].
  destruct (argv (ev x)); simpl; now rewrite IH.
Qed.

Lemma run_eq (cmd : string) (args : list string) (os : OS) (s : State) :
  run cmd args os s =
  let r := proc_combined os (trace s) cmd args in
  ((fst r, wrapped cmd (snd r)), after_combined os s cmd args).
Proof.
  unfold run, bind, exec_CombinedOutput, emit, after_combined, combined_entry,
    wrapped, ret.
  simpl. destruct (proc_combined os (trace s) cmd args) as [out [e|]]; reflexivity.
Qed.

Lemma run_err_eq (cmd : string) (args : list string) (os : OS) (s : State) :
  run_err cmd args os s =
  (wrapped cmd (snd (proc_combined os (trace s) cmd args)),
   after_combined os s cmd args).
Proof.
  unfold run_err, bind. rewrite run_eq. reflexivity.
Qed.

Lemma time_Sleep_eq (d : Z) (os : OS) (s : State) :
  time_Sleep d os s = (tt, after_sleep os s d).
Proof. reflexivity. Qed.

Lemma sysV_Restart_eq (c : sysV) (os : OS) (s : State) :
  sysV_Restart c os s =
  let (err, s1) := sysV_Stop c os s in
  match err with
  | Some e => (Some e, s1)
  | None => sysV_Start c os (snd (time_Sleep (50 * Millisecond) os s1))
  end.
Proof.
  unfold sysV_Restart, bind.
  destruct (sysV_Stop c os s) as [[e|] s1]; reflexivity.
Qed.

Lemma upstart_Restart_eq (u : upstart) (os : OS) (s : State) :
  upstart_Restart u os s =
  upstart_Start u os
    (snd (time_Sleep (50 * Millisecond) os (snd (upstart_Stop u os s)))).
Proof.
  unfold upstart_Restart, bind.
  destruct (upstart_Stop u os s) as [e s1]. reflexivity.
Qed.

(** ** Argument vectors *)

(** C2.  For every service name and resolved binary, what [Start] and
    [Stop] spawn is exactly one subprocess with the tabulated argument
    vector: systemd and upstart run [<bin> start <name>] and
    [<bin> stop <name>], SysV runs [<bin> <name> start] and
    [<bin> <name> stop]; the systemd [Restart] runs [<bin> restart <name>]. *)
Theorem start_stop_argument_vectors (bin name : string) (os : OS) (s : State) :
  spawned (since s (snd (Start (mkSystemd bin name) os s)))
    = [[bin; "start"; name]] /\
  spawned (since s (snd (Stop (mkSystemd bin name) os s)))
    = [[bin; "stop"; name]] /\
  spawned (since s (snd (Start (mkUpstart bin name) os s)))
    = [[bin; "start"; name]] /\
  spawned (since s (snd (Stop (mkUpstart bin name) os s)))
    = [[bin; "stop"; name]] /\
  spawned (since s (snd (Start (mkSysV bin name) os s)))
    = [[bin; name; "start"]] /\
  spawned (since s (snd (Stop (mkSysV bin name) os s)))
    = [[bin; name; "stop"]] /\
  spawned (since s (snd (Restart (mkSystemd bin name) os s)))
    = [[bin; "restart"; name]].
Proof.
  repeat split; simpl;
    match goal with
    | |- context [?f ?c os s] =>
        change (f c os s) with (run_err bin ["start"; name] os s)
        || change (f c os s) with (run_err bin ["stop"; name] os s)
        || change (f c os s) with (run_err bin [name; "start"] os s)
        || change (f c os s) with (run_err bin [name; "stop"] os s)
        || change (f c os s) with (run_err bin ["restart"; name] os s)
    end;
    rewrite run_err_eq; simpl;
    (erewrite since_app by (simpl; reflexivity)); reflexivity.
Qed.

(** ** Restart *)

Ltac journal :=
  apply since_app; unfold after_combined, after_sleep; simpl trace;
  rewrite <- ?app_assoc; reflexivity.

Lemma since_after_combined (os : OS) (s : State) (cmd : string)
      (args : list string) :
  since s (after_combined os s cmd args) = [combined_entry os s cmd args].
Proof. journal. Qed.

Lemma since_stop_sleep_start (os : OS) (s : State) (cmd : string)
      (stop start : list string) (d : Z) :
  let s1 := after_combined os s cmd stop in
  let s2 := after_sleep os s1 d in
  since s (after_combined os s2 cmd start)
  = [combined_entry os s cmd stop; sleep_entry os s1 d;
     combined_entry os s2 cmd start].
Proof. cbv zeta. journal. Qed.

Lemma upstart_Restart_run (u : upstart) (os : OS) (s : State) :
  let s1 := after_combined os s (upstart_cmd u) ["stop"; upstart_name u] in
  let s2 := after_sleep os s1 (50 * Millisecond) in
  upstart_Restart u os s =
  run_err (upstart_cmd u) ["start"; upstart_name u] os s2.
Proof.
  intros s1 s2. rewrite upstart_Restart_eq.
  change (upstart_Stop u os s)
    with (run_err (upstart_cmd u) ["stop"; upstart_name u] os s).
  rewrite run_err_eq, time_Sleep_eq. reflexivity.
Qed.

Lemma sysV_Restart_run (c : sysV) (os : OS) (s : State) :
  let s1 := after_combined os s (sysV_cmd c) [sysV_name c; "stop"] in
  let s2 := after_sleep os s1 (50 * Millisecond) in
  sysV_Restart c os s =
  match snd (proc_combined os (trace s) (sysV_cmd c) [sysV_name c; "stop"]) with
  | Some e => (Some (Wrapf (Os e) (sysV_cmd c ++ " command failed")), s1)
  | None => run_err (sysV_cmd c) [sysV_name c; "start"] os s2
  end.
Proof.
  intros s1 s2. rewrite sysV_Restart_eq.
  change (sysV_Stop c os s)
    with (run_err (sysV_cmd c) [sysV_name c; "stop"] os s).
  rewrite run_err_eq.
  destruct (snd (proc_combined os (trace s) (sysV_cmd c) [sysV_name c; "stop"]));
    reflexivity.
Qed.

(** C3.  SysV: whenever the stop step of [Restart] fails, [Restart] returns
    that very error and leaves the system in the state the stop step left
    it in: no sleep, and no subprocess besides [<bin> <name> stop]. *)
Theorem sysV_Restart_stop_failure (c : sysV) (os : OS) (s : State) (e : error) :
  fst (Stop c os s) = Some e ->
  Restart c os s = (Some e, snd (Stop c os s)) /\
  spawned (since s (snd (Restart c os s)))
    = [[sysV_cmd c; sysV_name c; "stop"]].
Proof.
  simpl. intros Hstop.
  assert (E : sysV_Restart c os s = (Some e, snd (sysV_Stop c os s))).
  { rewrite sysV_Restart_eq.
    destruct (sysV_Stop c os s) as [r s1]. simpl in Hstop. now subst r. }
  split; [exact E|]. rewrite E.
  change (sysV_Stop c os s)
    with (run_err (sysV_cmd c) [sysV_name c; "stop"] os s).
  rewrite run_err_eq. simpl snd. rewrite since_after_combined. reflexivity.
Qed.

Lemma sysV_Restart_stop_failure_witness :
  let c := mkSysV "/usr/sbin/service" "agent" in
  let e := Wrapf (Os (ExitError 1)) "/usr/sbin/service command failed" in
  fst (Stop c stop_fails_host boot) = Some e /\
  Restart c stop_fails_host boot = (Some e, snd (Stop c stop_fails_host boot)) /\
  spawned (since boot (snd (Restart c stop_fails_host boot)))
    = [["/usr/sbin/service"; "agent"; "stop"]].
Proof.
  intros c e. split; [reflexivity|].
  apply (sysV_Restart_stop_failure c stop_fails_host boot e). reflexivity.
Defined.

(** C4.  Upstart: whatever the stop step of [Restart] returns, the start
    step is attempted after it, and [Restart] returns what the start step
    returns; so [Restart] succeeds exactly when the start step does. *)
Theorem upstart_Restart_ignores_stop (u : upstart) (os : OS) (s : State) :
  let s2 := snd (time_Sleep (50 * Millisecond) os (snd (Stop u os s))) in
  Restart u os s = Start u os s2 /\
  spawned (since s (snd (Restart u os s)))
    = [[upstart_cmd u; "stop"; upstart_name u];
       [upstart_cmd u; "start"; upstart_name u]] /\
  (fst (Restart u os s) = None <->
   snd (proc_combined os (trace s2) (upstart_cmd u) ["start"; upstart_name u])
     = None).
Proof.
  cbv [Restart Start Stop upstart_Service].
  split; [apply upstart_Restart_eq|].
  pose proof (upstart_Restart_run u os s) as E. cbv zeta in E.
  change (upstart_Stop u os s)
    with (run_err (upstart_cmd u) ["stop"; upstart_name u] os s).
  rewrite run_err_eq, time_Sleep_eq, E, run_err_eq. cbv [fst snd].
  split.
  - erewrite since_app by (unfold after_combined, after_sleep; simpl trace;
                           rewrite <- ?app_assoc; reflexivity).
    reflexivity.
  - destruct (proc_combined _ _ _ _) as [out [e|]]; simpl; split; congruence.
Qed.

(** A stop that fails does not make the upstart [Restart] fail. *)
Example upstart_Restart_stop_fails :
  fst (Stop (mkUpstart "/sbin/initctl" "agent") stop_fails_host boot)
    = Some (Wrapf (Os (ExitError 1)) "/sbin/initctl command failed") /\
  fst (Restart (mkUpstart "/sbin/initctl" "agent") stop_fails_host boot) = None.
Proof. split; reflexivity. Qed.

(** ** All nine operations at once *)

Lemma perform_eq (v : ServiceValue) (o : Op) (os : OS) (s : State) :
  perform o v os s =
  match o, v with
  | OpRestart, OfUpstart u =>
      let s1 := after_combined os s (upstart_cmd u) ["stop"; upstart_name u] in
      let s2 := after_sleep os s1 (50 * Millisecond) in
      run_err (upstart_cmd u) ["start"; upstart_name u] os s2
  | OpRestart, OfSysV c =>
      let s1 := after_combined os s (sysV_cmd c) [sysV_name c; "stop"] in
      let s2 := after_sleep os s1 (50 * Millisecond) in
      match snd (proc_combined os (trace s) (sysV_cmd c) [sysV_name c; "stop"]) with
      | Some e => (Some (Wrapf (Os e) (sysV_cmd c ++ " command failed")), s1)
      | None => run_err (sysV_cmd c) [sysV_name c; "start"] os s2
      end
  | _, OfSysV c => run_err (sysV_cmd c) [sysV_name c; subcommand o] os s
  | _, OfSystemd c => run_err (systemd_cmd c) [subcommand o; systemd_name c] os s
  | _, OfUpstart u => run_err (upstart_cmd u) [subcommand o; upstart_name u] os s
  end.
Proof.
  destruct o, v; try reflexivity;
    [apply upstart_Restart_run | apply sysV_Restart_run].
Qed.

Ltac each_operation v o :=
  rewrite (perform_eq v o); destruct o, v; cbv zeta; rewrite ?run_err_eq.

(** C6, as the code has it.  [Start] and [Stop] of every variant and the
    systemd [Restart] spawn exactly one subprocess; the upstart [Restart]
    spawns exactly two; the SysV [Restart] spawns one when its stop step
    fails and two otherwise. *)
Theorem subprocesses_per_call (v : ServiceValue) (o : Op) (os : OS) (s : State) :
  length (spawned (since s (snd (perform o v os s)))) =
  match o, v with
  | OpRestart, OfUpstart _ => 2%nat
  | OpRestart, OfSysV c =>
      match fst (Stop c os s) with Some _ => 1%nat | None => 2%nat end
  | _, _ => 1%nat
  end.
Proof.
  assert (Hstop : forall c : sysV,
             fst (Stop c os s)
             = wrapped (sysV_cmd c)
                 (snd (proc_combined os (trace s) (sysV_cmd c) [sysV_name c; "stop"]))).
  { intros c. change (Stop c os s)
      with (run_err (sysV_cmd c) [sysV_name c; "stop"] os s).
    now rewrite run_err_eq. }
  each_operation v o; try rewrite Hstop;
    try (destruct (snd (proc_combined os (trace s) _ _)); simpl wrapped; cbv iota;
         rewrite ?run_err_eq);
    simpl snd; (erewrite since_app by (unfold after_combined, after_sleep;
                  simpl trace; rewrite <- ?app_assoc; reflexivity));
    reflexivity.
Qed.

(** C6, as stated, fails: one call of the upstart [Restart] spawns two
    subprocesses. *)
Lemma upstart_Restart_spawns_twice :
  spawned (since boot
             (snd (perform OpRestart (OfUpstart (mkUpstart "/sbin/initctl" "agent"))
                           bare_host boot)))
    = [["/sbin/initctl"; "stop"; "agent"]; ["/sbin/initctl"; "start"; "agent"]] /\
  length (spawned (since boot
             (snd (perform OpRestart (OfUpstart (mkUpstart "/sbin/initctl" "agent"))
                           bare_host boot)))) <> 1%nat.
Proof. split; [reflexivity | vm_compute; discriminate]. Qed.

(** C10.  Whatever the service name (spaces and shell metacharacters
    included), every subprocess a control operation spawns is the handle's
    own binary, run directly, with an argument vector of exactly three
    elements of which the name, unchanged, is one. *)
Theorem name_is_one_argument (v : ServiceValue) (o : Op) (os : OS) (s : State) :
  let l := spawned (since s (snd (perform o v os s))) in
  l <> [] /\
  Forall (fun a => exists sub,
              In sub ["start"; "stop"; "restart"] /\
              (a = [cmd_of v; sub; name_of v] \/ a = [cmd_of v; name_of v; sub]))
         l.
Proof.
  each_operation v o;
    try (destruct (snd (proc_combined os (trace s) _ _)); cbv iota;
         rewrite ?run_err_eq);
    simpl snd; (erewrite since_app by (unfold after_combined, after_sleep;
                  simpl trace; rewrite <- ?app_assoc; reflexivity));
    (split; [discriminate|]); simpl;
    repeat (constructor; [eexists; split; [|first [left; reflexivity | right; reflexivity]];
                          simpl; auto |]);
    constructor.
Qed.

Example hostile_name_is_one_argument :
  spawned (since boot
             (snd (Start (mkSysV "/usr/sbin/service" "agent; reboot && $(id)")
                         bare_host boot)))
    = [["/usr/sbin/service"; "agent; reboot && $(id)"; "start"]].
Proof. reflexivity. Qed.

(** ** The pause between stop and start *)

(** A sleep returns no earlier than the requested duration after it was
    called. *)
Lemma sleep_entry_lasts (os : OS) (s : State) (d : Z) :
  began (sleep_entry os s d) + d <= ended (sleep_entry os s d).
Proof.
  unfold sleep_entry; simpl.
  pose proof (N2Z.is_nonneg (sched_latency os (trace s) (EvSleep d))). lia.
Qed.

Lemma stop_pause_start_intro (os : OS) (s : State) (cmd : string)
      (stop start : list string) :
  let s1 := after_combined os s cmd stop in
  let s2 := after_sleep os s1 (50 * Millisecond) in
  stop_pause_start (since s (after_combined os s2 cmd start))
                   (cmd :: stop) (cmd :: start).
Proof.
  intros s1 s2.
  exists (combined_entry os s cmd stop), (sleep_entry os s1 (50 * Millisecond)),
    (combined_entry os s2 cmd start).
  split; [journal|]. do 3 (split; [reflexivity|]).
  pose proof (sleep_entry_lasts os s1 (50 * Millisecond)) as H.
  change (began (combined_entry os s2 cmd start))
    with (ended (sleep_entry os s1 (50 * Millisecond))).
  change (began (sleep_entry os s1 (50 * Millisecond)))
    with (ended (combined_entry os s cmd stop)) in H.
  revert H. generalize (ended (sleep_entry os s1 (50 * Millisecond))).
  generalize (ended (combined_entry os s cmd stop)).
  unfold Millisecond. intros a b H. lia.
Qed.

(** C9.  The upstart [Restart] always, and the SysV [Restart] whenever it
    spawns a start at all, sleeps 50ms between the stop step and the start
    step: the start subprocess is spawned no earlier than 50ms after the
    stop subprocess returned. *)
Theorem restart_pauses_before_start (os : OS) (s : State) :
  (forall u : upstart,
      stop_pause_start (since s (snd (Restart u os s)))
                       [upstart_cmd u; "stop"; upstart_name u]
                       [upstart_cmd u; "start"; upstart_name u]) /\
  (forall c : sysV,
      spawned (since s (snd (Restart c os s)))
        = [[sysV_cmd c; sysV_name c; "stop"]] \/
      stop_pause_start (since s (snd (Restart c os s)))
                       [sysV_cmd c; sysV_name c; "stop"]
                       [sysV_cmd c; sysV_name c; "start"]).
Proof.
  split.
  - intros u. change (Restart u os s) with (upstart_Restart u os s).
    pose proof (upstart_Restart_run u os s) as E. cbv zeta in E.
    rewrite E, run_err_eq. simpl snd.
    apply (stop_pause_start_intro os s (upstart_cmd u)
             ["stop"; upstart_name u] ["start"; upstart_name u]).
  - intros c. change (Restart c os s) with (sysV_Restart c os s).
    pose proof (sysV_Restart_run c os s) as E. cbv zeta in E. rewrite E.
    destruct (snd (proc_combined os (trace s) _ _)).
    + left. simpl snd. rewrite since_after_combined. reflexivity.
    + right. rewrite run_err_eq. simpl snd.
      apply (stop_pause_start_intro os s (sysV_cmd c)
               [sysV_name c; "stop"] [sysV_name c; "start"]).
Qed.

(** ** What a failure reports *)

Lemma prefix_append (a b : string) : String.prefix a (a ++ b) = true.
Proof.
  induction a as [|ch a IH]; simpl.
  - now destruct b.
  - destruct (ascii_dec ch ch); [exact IH | congruence].
Qed.

Lemma Contains_prefix (s sub : string) :
  String.prefix sub s = true -> Contains s sub = true.
Proof.
  intros H.
  assert (E : Contains s sub
              = String.prefix sub s ||
                match s with EmptyString => false | String _ s' => Contains s' sub end)
    by (destruct s; reflexivity).
  rewrite E, H. reflexivity.
Qed.

Lemma append_assoc (a b c : string) : ((a ++ b) ++ c = a ++ b ++ c)%string.
Proof. induction a as [|ch a IH]; simpl; [reflexivity | now rewrite IH]. Qed.

(** The message of the error [run] builds: the tool, the fixed text and
    the message of the cause; it begins with the tool's name. *)
Lemma Error_wrapped (cmd : string) (e : oserror) :
  let w := Wrapf (Os e) (cmd ++ " command failed") in
  Error w = cmd ++ " command failed: " ++ Error (Os e) /\
  Contains (Error w) cmd = true.
Proof.
  assert (E : Error (Wrapf (Os e) (cmd ++ " command failed"))
              = cmd ++ " command failed: " ++ Error (Os e)).
  { change (Error (Wrapf (Os e) (cmd ++ " command failed")))
      with ((cmd ++ " command failed") ++ ": " ++ Error (Os e)).
    rewrite append_assoc. reflexivity. }
  cbv zeta. split; [exact E|]. rewrite E.
  apply Contains_prefix, prefix_append.
Qed.

Lemma failed_entry (os : OS) (s : State) (cmd : string) (args : list string)
      (c : string) (a : list string) (out : string) (e : oserror) :
  ev (combined_entry os s cmd args) = EvCombinedOutput c a out (Some e) ->
  c = cmd /\ a = args /\ snd (proc_combined os (trace s) cmd args) = Some e.
Proof.
  unfold combined_entry; simpl. intros H. inversion H. auto.
Qed.

(** C5, as the code has it.  Whenever a control subprocess fails, the
    operation returns the error [run] built from it, whose message is the
    tool's name, the text [command failed] and the message of the cause
    (for a non-zero exit, [exit status n]); the captured output is not part
    of it.  The one exception is the stop step of the upstart [Restart],
    whose error is dropped. *)
Theorem failure_names_the_tool (v : ServiceValue) (o : Op) (os : OS) (s : State)
        (x : Entry) (c : string) (a : list string) (out : string) (e : oserror) :
  In x (since s (snd (perform o v os s))) ->
  ev x = EvCombinedOutput c a out (Some e) ->
  (exists u, v = OfUpstart u /\ o = OpRestart /\ a = ["stop"; upstart_name u]) \/
  (c = cmd_of v /\
   fst (perform o v os s) = Some (Wrapf (Os e) (c ++ " command failed")) /\
   Error (Wrapf (Os e) (c ++ " command failed"))
     = c ++ " command failed: " ++ Error (Os e) /\
   Contains (Error (Wrapf (Os e) (c ++ " command failed"))) c = true).
Proof.
  pose proof (Error_wrapped c e) as [Hmsg Hin].
  assert (Hone : forall s0 cmd args,
             In x [combined_entry os s0 cmd args] ->
             ev x = EvCombinedOutput c a out (Some e) ->
             c = cmd /\ a = args /\
             wrapped cmd (snd (proc_combined os (trace s0) cmd args))
             = Some (Wrapf (Os e) (c ++ " command failed"))).
  { intros s0 cmd args [<-|[]] Hev.
    apply failed_entry in Hev as (-> & -> & ->). auto. }
  each_operation v o; cbn [fst snd].
  1-7: rewrite since_after_combined; intros Hx Hev;
       apply Hone in Hx as (-> & -> & Hw); [right; auto | exact Hev].
  - (* upstart Restart *)
    rewrite since_stop_sleep_start.
    intros [<-|[<-|Hx]] Hev.
    + left. apply failed_entry in Hev as (_ & -> & _). eauto.
    + discriminate Hev.
    + right. apply Hone in Hx as (-> & -> & Hw); [auto | exact Hev].
  - (* SysV Restart *)
    destruct (snd (proc_combined os (trace s) _ _)) as [e1|] eqn:Hstop.
    + (* the stop step failed *)
      cbn [fst snd]. rewrite since_after_combined.
      intros [<-|[]] Hev. right.
      apply failed_entry in Hev as (-> & -> & Hs).
      rewrite Hstop in Hs. inversion Hs; subst. auto.
    + (* the stop step succeeded *)
      cbn [fst snd]. rewrite since_stop_sleep_start.
      intros [<-|[<-|Hx]] Hev.
      * apply failed_entry in Hev as (_ & _ & Hs). congruence.
      * discriminate Hev.
      * right. apply Hone in Hx as (-> & -> & Hw); [auto | exact Hev].
Qed.

(** C5, as stated, fails: the tool's diagnostic is captured by [run] but
    dropped by [Start]; the error carries the tool's name and the exit
    status only. *)
Lemma failed_start_error_omits_output :
  let v := OfSystemd (mkSystemd "/usr/bin/systemctl" "agent") in
  let out := "Failed to start agent.service: Unit agent.service not found." in
  map ev (since boot (snd (perform OpStart v failing_host boot)))
    = [EvCombinedOutput "/usr/bin/systemctl" ["start"; "agent"] out
                        (Some (ExitError 5))] /\
  exists e,
    fst (perform OpStart v failing_host boot) = Some e /\
    Error e = "/usr/bin/systemctl command failed: exit status 5" /\
    Contains (Error e) out = false.
Proof.
  split; [reflexivity|].
  eexists. split; [reflexivity|]. split; reflexivity.
Qed.

Lemma failure_names_the_tool_witness :
  let v := OfSystemd (mkSystemd "/usr/bin/systemctl" "agent") in
  let out := "Failed to start agent.service: Unit agent.service not found." in
  let x := mkEntry (EvCombinedOutput "/usr/bin/systemctl" ["start"; "agent"] out
                                     (Some (ExitError 5))) 0 0 in
  let w := Wrapf (Os (ExitError 5)) "/usr/bin/systemctl command failed" in
  In x (since boot (snd (perform OpStart v failing_host boot))) /\
  ev x = EvCombinedOutput "/usr/bin/systemctl" ["start"; "agent"] out
                          (Some (ExitError 5)) /\
  ((exists u, v = OfUpstart u /\ OpStart = OpRestart /\
              ["start"; "agent"] = ["stop"; upstart_name u]) \/
   ("/usr/bin/systemctl" = cmd_of v /\
    fst (perform OpStart v failing_host boot) = Some w /\
    Error w = "/usr/bin/systemctl command failed: exit status 5" /\
    Contains (Error w) "/usr/bin/systemctl" = true)).
Proof.
  intros v out x w.
  assert (Hx : In x (since boot (snd (perform OpStart v failing_host boot))))
    by (left; reflexivity).
  split; [exact Hx|]. split; [reflexivity|].
  exact (failure_names_the_tool v OpStart failing_host boot x
           "/usr/bin/systemctl" ["start"; "agent"] out (ExitError 5)
           Hx eq_refl).
Defined.

(** ** Detection *)

Lemma isSystemd_eq (os : OS) (s : State) :
  isSystemd os s
  = (exists_at os s "/run/systemd/system", after_stat os s "/run/systemd/system").
Proof.
  unfold isSystemd, bind, os_Stat, exists_at, after_stat. simpl.
  destruct (fs_stat os (trace s) "/run/systemd/system"); reflexivity.
Qed.

Lemma isSysV_eq (os : OS) (s : State) :
  isSysV os s
  = (exists_at os s "/usr/sbin/service", after_stat os s "/usr/sbin/service").
Proof.
  unfold isSysV, bind, os_Stat, exists_at, after_stat. simpl.
  destruct (fs_stat os (trace s) "/usr/sbin/service"); reflexivity.
Qed.

Lemma isUpstart_eq (os : OS) (s : State) :
  let s1 := after_stat os s "/sbin/upstart-udev-bridge" in
  let s2 := after_stat os s1 "/sbin/init" in
  let r := proc_output os (trace s2) "/sbin/init" ["--version"] in
  isUpstart os s =
  if exists_at os s "/sbin/upstart-udev-bridge" then (true, s1)
  else if exists_at os s1 "/sbin/init" then
         (match snd r with
          | None => Contains (fst r) "init (upstart"
          | Some _ => false
          end,
          snd (exec_Output "/sbin/init" ["--version"] os s2))
       else (false, s2).
Proof.
  cbv zeta. unfold isUpstart, bind, exists_at, after_stat.
  cbn [os_Stat fst snd].
  destruct (fs_stat os (trace s) "/sbin/upstart-udev-bridge"); [|reflexivity].
  destruct (fs_stat os _ "/sbin/init"); [reflexivity|].
  cbn [exec_Output fst snd].
  destruct (proc_output os _ "/sbin/init" ["--version"]) as [out [e|]];
    cbn [fst snd]; [reflexivity|].
  destruct (Contains out "init (upstart"); reflexivity.
Qed.

(** [New] is the three checks in the order systemd, upstart, SysV, each
    made in the state the previous one left; the first that succeeds
    decides which binary is resolved and which variant is bound. *)
Lemma New_first_match (name : string) (os : OS) (s : State) :
  New name os s =
  let (b1, s1) := isSystemd os s in
  if b1 then resolve "systemctl" (fun cmd => OfSystemd (mkSystemd cmd name)) os s1
  else
    let (b2, s2) := isUpstart os s1 in
    if b2 then resolve "initctl" (fun cmd => OfUpstart (mkUpstart cmd name)) os s2
    else
      let (b3, s3) := isSysV os s2 in
      if b3 then resolve "service" (fun cmd => OfSysV (mkSysV cmd name)) os s3
      else (Err (Errorf "cannot detect service manager"), s3).
Proof.
  unfold New, bind at 1.
  destruct (isSystemd os s) as [[|] s1]; [reflexivity|].
  unfold bind at 1.
  destruct (isUpstart os s1) as [[|] s2]; [reflexivity|].
  unfold bind at 1.
  destruct (isSysV os s2) as [[|] s3]; reflexivity.
Qed.

Lemma resolve_eq (file : string) (mk : string -> ServiceValue) (os : OS) (s : State) :
  resolve file mk os s =
  (match path_lookup os (trace s) file with
   | inl err => Err (WithStack (Os err))
   | inr cmd => Ok (mk cmd)
   end,
   snd (exec_LookPath file os s)).
Proof.
  unfold resolve, bind, exec_LookPath. cbn [snd].
  destruct (path_lookup os (trace s) file); reflexivity.
Qed.

(** C1.  [New] makes the three checks in the order systemd, upstart, SysV
    and the first that succeeds selects the backend.  In particular, where
    both the systemd marker and the upstart marker exist, [New] takes the
    systemd branch: it stats the systemd marker, resolves [systemctl] and
    nothing else, and returns the systemd handle bound to the resolved
    binary (or the resolution error); upstart is not even probed. *)
Theorem detection_prefers_systemd (name : string) (os : OS) (s : State) :
  New name os s =
  (let (b1, s1) := isSystemd os s in
   if b1 then resolve "systemctl" (fun cmd => OfSystemd (mkSystemd cmd name)) os s1
   else
     let (b2, s2) := isUpstart os s1 in
     if b2 then resolve "initctl" (fun cmd => OfUpstart (mkUpstart cmd name)) os s2
     else
       let (b3, s3) := isSysV os s2 in
       if b3 then resolve "service" (fun cmd => OfSysV (mkSysV cmd name)) os s3
       else (Err (Errorf "cannot detect service manager"), s3)) /\
  (fs_stat os (trace s) "/run/systemd/system" = None ->
   (forall h, fs_stat os h "/sbin/upstart-udev-bridge" = None) ->
   exists r,
     map ev (since s (snd (New name os s)))
       = [EvStat "/run/systemd/system" None; EvLookPath "systemctl" r] /\
     fst (New name os s) =
       match r with
       | inl err => Err (WithStack (Os err))
       | inr cmd => Ok (OfSystemd (mkSystemd cmd name))
       end).
Proof.
  split; [apply New_first_match|].
  intros Hsys _.
  unfold New, isSystemd, bind, os_Stat, exec_LookPath, ret.
  rewrite Hsys. cbn [emit trace now fst snd].
  remember (path_lookup os _ "systemctl") as r eqn:Er. clear Er. exists r.
  destruct r as [err|cmd]; cbn [fst snd]; (split; [|reflexivity]);
    (erewrite since_app
       by (unfold emit; cbn [trace]; rewrite <- app_assoc; reflexivity));
    reflexivity.
Qed.

Lemma detection_prefers_systemd_witness :
  fs_stat mixed_host (trace boot) "/run/systemd/system" = None /\
  (forall h, fs_stat mixed_host h "/sbin/upstart-udev-bridge" = None) /\
  exists r,
    map ev (since boot (snd (New "agent" mixed_host boot)))
      = [EvStat "/run/systemd/system" None; EvLookPath "systemctl" r] /\
    fst (New "agent" mixed_host boot) =
      match r with
      | inl err => Err (WithStack (Os err))
      | inr cmd => Ok (OfSystemd (mkSystemd cmd "agent"))
      end.
Proof.
  split; [reflexivity|]. split; [intros h; reflexivity|].
  apply (proj2 (detection_prefers_systemd "agent" mixed_host boot));
    [reflexivity | intros h; reflexivity].
Defined.

Example New_on_mixed_host :
  fst (isUpstart mixed_host boot) = true /\
  fst (New "agent" mixed_host boot)
    = Ok (OfSystemd (mkSystemd "/usr/bin/systemctl" "agent")).
Proof. split; reflexivity. Qed.

(** C7.  Where the systemd marker, the upstart bridge binary and the SysV
    service binary are all absent, and [init --version] is absent, fails
    or does not name upstart, [New] returns no handle but the error
    [cannot detect service manager]. *)
Theorem no_backend_is_a_detection_error (name : string) (os : OS) (s : State) :
  (forall h, fs_stat os h "/run/systemd/system" <> None) ->
  (forall h, fs_stat os h "/sbin/upstart-udev-bridge" <> None) ->
  (forall h h',
      fs_stat os h "/sbin/init" = None ->
      snd (proc_output os h' "/sbin/init" ["--version"]) = None ->
      Contains (fst (proc_output os h' "/sbin/init" ["--version"])) "init (upstart"
        = false) ->
  (forall h, fs_stat os h "/usr/sbin/service" <> None) ->
  fst (New name os s) = Err (Errorf "cannot detect service manager") /\
  Error (Errorf "cannot detect service manager") = "cannot detect service manager".
Proof.
  intros Hsys Hbridge Hinit Hsvc. split; [|reflexivity].
  assert (Habsent : forall p s0, fs_stat os (trace s0) p <> None ->
                                 exists_at os s0 p = false).
  { intros p s0 H. unfold exists_at. destruct (fs_stat os (trace s0) p); congruence. }
  rewrite New_first_match, isSystemd_eq, (Habsent _ _ (Hsys _)).
  pose proof (isUpstart_eq os (after_stat os s "/run/systemd/system")) as E.
  cbv zeta in E. rewrite E, (Habsent _ _ (Hbridge _)). clear E.
  assert (Hup : forall s0,
             (if exists_at os s0 "/sbin/init"
              then (match snd (proc_output os (trace (after_stat os s0 "/sbin/init"))
                                           "/sbin/init" ["--version"]) with
                    | None => Contains
                                (fst (proc_output os (trace (after_stat os s0 "/sbin/init"))
                                                  "/sbin/init" ["--version"]))
                                "init (upstart"
                    | Some _ => false
                    end,
                    snd (exec_Output "/sbin/init" ["--version"] os
                                     (after_stat os s0 "/sbin/init")))
              else (false, after_stat os s0 "/sbin/init"))
             = (false, if exists_at os s0 "/sbin/init"
                       then snd (exec_Output "/sbin/init" ["--version"] os
                                             (after_stat os s0 "/sbin/init"))
                       else after_stat os s0 "/sbin/init")).
  { intros s0. unfold exists_at.
    destruct (fs_stat os (trace s0) "/sbin/init") eqn:Ei; [reflexivity|].
    destruct (snd (proc_output os _ "/sbin/init" ["--version"])) eqn:Ev;
      [reflexivity|].
    rewrite (Hinit _ _ Ei Ev). reflexivity. }
  rewrite Hup, isSysV_eq, (Habsent _ _ (Hsvc _)). reflexivity.
Qed.

Lemma no_backend_is_a_detection_error_witness :
  (forall h, fs_stat bare_host h "/run/systemd/system" <> None) /\
  (forall h, fs_stat bare_host h "/sbin/upstart-udev-bridge" <> None) /\
  (forall h h',
      fs_stat bare_host h "/sbin/init" = None ->
      snd (proc_output bare_host h' "/sbin/init" ["--version"]) = None ->
      Contains (fst (proc_output bare_host h' "/sbin/init" ["--version"]))
               "init (upstart" = false) /\
  (forall h, fs_stat bare_host h "/usr/sbin/service" <> None) /\
  fst (New "agent" bare_host boot) = Err (Errorf "cannot detect service manager") /\
  Error (Errorf "cannot detect service manager") = "cannot detect service manager".
Proof.
  assert (H1 : forall h, fs_stat bare_host h "/run/systemd/system" <> None)
    by (intros h; simpl; discriminate).
  assert (H2 : forall h, fs_stat bare_host h "/sbin/upstart-udev-bridge" <> None)
    by (intros h; simpl; discriminate).
  assert (H3 : forall h h',
             fs_stat bare_host h "/sbin/init" = None ->
             snd (proc_output bare_host h' "/sbin/init" ["--version"]) = None ->
             Contains (fst (proc_output bare_host h' "/sbin/init" ["--version"]))
                      "init (upstart" = false)
    by (intros h h' _ _; reflexivity).
  assert (H4 : forall h, fs_stat bare_host h "/usr/sbin/service" <> None)
    by (intros h; simpl; discriminate).
  repeat (split; [assumption|]).
  exact (no_backend_is_a_detection_error "agent" bare_host boot H1 H2 H3 H4).
Defined.

(** C8, as stated, fails: the init binary exists and the output of
    [init --version] contains the substring, yet upstart is not detected,
    because the command exited with an error. *)
Lemma isUpstart_needs_successful_init :
  fs_stat odd_init_host (trace boot) "/sbin/upstart-udev-bridge" <> None /\
  fs_stat odd_init_host (trace (after_stat odd_init_host boot
                                           "/sbin/upstart-udev-bridge"))
          "/sbin/init" = None /\
  map ev (since boot (snd (isUpstart odd_init_host boot)))
    = [EvStat "/sbin/upstart-udev-bridge" (Some ENOENT);
       EvStat "/sbin/init" None;
       EvOutput "/sbin/init" ["--version"] "init (upstart 1.12.1)"
                (Some (ExitError 1))] /\
  Contains "init (upstart 1.12.1)" "init (upstart" = true /\
  fst (isUpstart odd_init_host boot) = false.
Proof.
  split; [simpl; discriminate|]. repeat split; reflexivity.
Qed.

(** C8, as the code has it.  Upstart is detected if and only if the bridge
    binary exists, or the init binary exists and [init --version] returns
    without error with the substring [init (upstart] in its standard
    output.  [init --version] is the only subprocess of the check, and it
    is spawned exactly when the bridge binary is absent and the init binary
    exists. *)
Theorem isUpstart_iff (os : OS) (s : State) :
  let s1 := after_stat os s "/sbin/upstart-udev-bridge" in
  let s2 := after_stat os s1 "/sbin/init" in
  let r := proc_output os (trace s2) "/sbin/init" ["--version"] in
  (fst (isUpstart os s) = true <->
   fs_stat os (trace s) "/sbin/upstart-udev-bridge" = None \/
   (fs_stat os (trace s1) "/sbin/init" = None /\
    snd r = None /\
    Contains (fst r) "init (upstart" = true)) /\
  spawned (since s (snd (isUpstart os s))) =
    match fs_stat os (trace s) "/sbin/upstart-udev-bridge",
          fs_stat os (trace s1) "/sbin/init" with
    | Some _, None => [["/sbin/init"; "--version"]]
    | _, _ => []
    end.
Proof.
  intros s1 s2 r. pose proof (isUpstart_eq os s) as E. cbv zeta in E.
  fold s1 s2 r in E. rewrite E. clear E. unfold exists_at.
  destruct (fs_stat os (trace s) "/sbin/upstart-udev-bridge") as [e1|] eqn:E1.
  - destruct (fs_stat os (trace s1) "/sbin/init") as [e2|] eqn:E2.
    + split.
      * cbn [fst]. split; [discriminate|]. intros [H|(H & _)]; discriminate H.
      * cbn [snd]. erewrite since_app;
          [|unfold s2, s1, after_stat, os_Stat, emit; cbn [snd trace];
            rewrite <- app_assoc; reflexivity].
        reflexivity.
    + split.
      * cbn [fst]. destruct (snd r) as [e3|].
        -- split; [discriminate|]. intros [H|(_ & H & _)]; discriminate H.
        -- split; [intros H; right; auto|]. intros [H|(_ & _ & H)];
             [discriminate H | exact H].
      * cbn [snd]. erewrite since_app;
          [|unfold exec_Output, s2, s1, after_stat, os_Stat, emit; cbn [snd trace];
            rewrite <- !app_assoc; reflexivity].
        reflexivity.
  - split.
    + cbn [fst]. split; auto.
    + cbn [snd]. erewrite since_app;
        [|unfold s1, after_stat, os_Stat, emit; cbn [snd trace]; reflexivity].
      reflexivity.
Qed.

(** ** Further properties of the control operations *)

(** X1.  Every control operation ends with a subprocess of the handle's
    own binary, and returns what [run] makes of that subprocess's error:
    nil when it succeeded, and otherwise the error wrapped with the
    binary's name.  So an operation succeeds exactly when the last
    subprocess it spawned did. *)
Theorem result_is_last_subprocess (v : ServiceValue) (o : Op) (os : OS) (s : State) :
  exists pre a out err,
    map ev (since s (snd (perform o v os s)))
      = (pre ++ [EvCombinedOutput (cmd_of v) a out err])%list /\
    fst (perform o v os s) = wrapped (cmd_of v) err.
Proof.
  each_operation v o; cbn [fst snd].
  1-7: rewrite since_after_combined; exists [];
       do 3 eexists; split; reflexivity.
  - rewrite since_stop_sleep_start.
    eexists [_; _]. do 3 eexists. split; reflexivity.
  - destruct (snd (proc_combined os (trace s) _ _)) as [e1|] eqn:Hstop;
      cbn [fst snd].
    + rewrite since_after_combined. exists [].
      exists [sysV_name s0; "stop"],
        (fst (proc_combined os (trace s) (sysV_cmd s0) [sysV_name s0; "stop"])),
        (Some e1).
      split; [|reflexivity].
      unfold combined_entry. cbn [map ev app]. rewrite Hstop. reflexivity.
    + rewrite since_stop_sleep_start.
      eexists [_; _]. do 3 eexists. split; reflexivity.
Qed.

(** X2.  A control operation journals nothing but [CombinedOutput] calls
    of the handle's own binary and sleeps of 50ms: it never stats a file,
    never resolves the binary again and never uses [Output()].  The sleeps
    are one fewer than the subprocesses, so [Start], [Stop] and the systemd
    [Restart] never sleep. *)
Theorem operations_only_spawn_and_sleep (v : ServiceValue) (o : Op) (os : OS)
        (s : State) :
  let l := since s (snd (perform o v os s)) in
  Forall (control_event v) (map ev l) /\
  S (length (filter is_sleep (map ev l))) = length (spawned l).
Proof.
  assert (Hrun : forall s0 a,
             control_event v (ev (combined_entry os s0 (cmd_of v) a)))
    by (intros s0 a; left; do 3 eexists; reflexivity).
  assert (Hsleep : forall s0,
             control_event v (ev (sleep_entry os s0 (50 * Millisecond))))
    by (intros s0; right; reflexivity).
  revert Hrun Hsleep.
  each_operation v o; cbn [fst snd cmd_of]; intros Hrun Hsleep.
  1-7: rewrite since_after_combined; split; [|reflexivity];
       cbn [map]; apply Forall_cons; [apply Hrun | apply Forall_nil].
  - rewrite since_stop_sleep_start. split; [|reflexivity].
    cbn [map].
    repeat (apply Forall_cons; [first [apply Hrun | apply Hsleep]|]).
    apply Forall_nil.
  - destruct (snd (proc_combined os (trace s) _ _)) as [e1|]; cbn [fst snd].
    + rewrite since_after_combined. split; [|reflexivity].
      cbn [map]. apply Forall_cons; [apply Hrun | apply Forall_nil].
    + rewrite since_stop_sleep_start. split; [|reflexivity].
      cbn [map].
      repeat (apply Forall_cons; [first [apply Hrun | apply Hsleep]|]).
      apply Forall_nil.
Qed.

(** X3.  The SysV [Restart] returns the stop error when the stop step
    fails and otherwise what the start step returns; it succeeds exactly
    when both steps succeed. *)
Theorem sysV_Restart_succeeds_iff (c : sysV) (os : OS) (s : State) :
  let s2 := snd (time_Sleep (50 * Millisecond) os (snd (Stop c os s))) in
  fst (Restart c os s)
    = match fst (Stop c os s) with
      | Some e => Some e
      | None => fst (Start c os s2)
      end /\
  (fst (Restart c os s) = None <->
   fst (Stop c os s) = None /\ fst (Start c os s2) = None).
Proof.
  cbv [Restart Start Stop sysV_Service]. rewrite sysV_Restart_eq.
  destruct (sysV_Stop c os s) as [[e|] s1]; cbn [fst snd].
  - split; [reflexivity|]. split; [discriminate|]. intros [H _]. discriminate H.
  - split; [reflexivity|]. split; [auto|]. intros [_ H]. exact H.
Qed.

(** X4.  The upstart [Restart] keeps its caller for at least 50ms, also
    when the stop step failed; the SysV [Restart] does so when its stop
    step succeeded, and returns at the moment the stop returned when it
    failed. *)
Theorem restart_takes_50ms (os : OS) (s : State) :
  (forall u : upstart,
      now s + 50000000 <= now (snd (Restart u os s))) /\
  (forall c : sysV,
      match fst (Stop c os s) with
      | None => now s + 50000000 <= now (snd (Restart c os s))
      | Some _ => now (snd (Restart c os s)) = now (snd (Stop c os s))
      end).
Proof.
  assert (Hrun : forall s0 cmd a, now s0 <= now (after_combined os s0 cmd a)).
  { intros s0 cmd a. unfold after_combined, combined_entry. cbn [now ended].
    pose proof (N2Z.is_nonneg
                  (sched_latency os (trace s0)
                     (EvCombinedOutput cmd a
                        (fst (proc_combined os (trace s0) cmd a))
                        (snd (proc_combined os (trace s0) cmd a))))).
    lia. }
  assert (Hsleep : forall s0,
             now s0 + 50000000 <= now (after_sleep os s0 (50 * Millisecond))).
  { intros s0. pose proof (sleep_entry_lasts os s0 (50 * Millisecond)) as H.
    unfold after_sleep. cbn [now]. unfold sleep_entry at 1 in H. cbn [began] in H.
    unfold Millisecond in *. lia. }
  split.
  - intros u. change (Restart u os s) with (upstart_Restart u os s).
    pose proof (upstart_Restart_run u os s) as E. cbv zeta in E.
    rewrite E, run_err_eq. cbn [snd].
    pose proof (Hrun s (upstart_cmd u) ["stop"; upstart_name u]).
    pose proof (Hsleep (after_combined os s (upstart_cmd u) ["stop"; upstart_name u])).
    pose proof (Hrun (after_sleep os
                        (after_combined os s (upstart_cmd u) ["stop"; upstart_name u])
                        (50 * Millisecond))
                     (upstart_cmd u) ["start"; upstart_name u]).
    lia.
  - intros c. change (Restart c os s) with (sysV_Restart c os s).
    change (Stop c os s) with (run_err (sysV_cmd c) [sysV_name c; "stop"] os s).
    pose proof (sysV_Restart_run c os s) as E. cbv zeta in E.
    rewrite E, run_err_eq. cbn [fst snd]. clear E.
    destruct (snd (proc_combined os (trace s) _ _)) as [e1|];
      cbn [wrapped fst snd]; [reflexivity|].
    rewrite run_err_eq. cbn [snd].
    pose proof (Hrun s (sysV_cmd c) [sysV_name c; "stop"]).
    pose proof (Hsleep (after_combined os s (sysV_cmd c) [sysV_name c; "stop"])).
    pose proof (Hrun (after_sleep os
                        (after_combined os s (sysV_cmd c) [sysV_name c; "stop"])
                        (50 * Millisecond))
                     (sysV_cmd c) [sysV_name c; "start"]).
    lia.
Qed.

(** ** Further properties of detection *)

Ltac journal_of_New :=
  erewrite since_app
    by (unfold emit; cbn [trace]; rewrite <- ?app_assoc; reflexivity);
  cbn [map ev app].

(** Each of the three checks only adds probes to the journal. *)
Lemma isSystemd_probes (os : OS) (s : State) :
  exists l, trace (snd (isSystemd os s)) = (trace s ++ l)%list /\
            forallb is_probe (map ev l) = true.
Proof.
  rewrite isSystemd_eq. eexists. split; reflexivity.
Qed.

Lemma isSysV_probes (os : OS) (s : State) :
  exists l, trace (snd (isSysV os s)) = (trace s ++ l)%list /\
            forallb is_probe (map ev l) = true.
Proof.
  rewrite isSysV_eq. eexists. split; reflexivity.
Qed.

Lemma isUpstart_probes (os : OS) (s : State) :
  exists l, trace (snd (isUpstart os s)) = (trace s ++ l)%list /\
            forallb is_probe (map ev l) = true.
Proof.
  pose proof (isUpstart_eq os s) as E. cbv zeta in E. rewrite E. clear E.
  destruct (exists_at os s "/sbin/upstart-udev-bridge").
  - eexists. split; reflexivity.
  - destruct (exists_at os _ "/sbin/init"); cbn [snd].
    + eexists. split.
      * unfold exec_Output, after_stat, os_Stat, emit. cbn [snd trace].
        rewrite <- !app_assoc. reflexivity.
      * reflexivity.
    + eexists. split.
      * unfold after_stat, os_Stat, emit. cbn [snd trace].
        rewrite <- !app_assoc. reflexivity.
      * reflexivity.
Qed.

Lemma resolve_journal (file : string) (mk : string -> ServiceValue) (os : OS)
      (s : State) :
  exists x, trace (snd (resolve file mk os s)) = (trace s ++ [x])%list /\
            ev x = EvLookPath file (path_lookup os (trace s) file).
Proof.
  rewrite resolve_eq. eexists. split; reflexivity.
Qed.

Lemma probes_then_lookup (pre : list Event) (x : Event) :
  forallb is_probe pre = true -> is_lookup x = true ->
  forallb (fun e => is_probe e || is_lookup e) (pre ++ [x]) = true /\
  filter is_lookup (pre ++ [x]) = [x] /\
  last (pre ++ [x]) (EvSleep 0) = x.
Proof.
  intros Hpre Hx. split; [|split].
  - rewrite forallb_app. cbn. rewrite Hx, orb_true_r, andb_true_r.
    rewrite forallb_forall in *. intros e He. now rewrite (Hpre e He).
  - rewrite filter_app. cbn. rewrite Hx.
    induction pre as [|e pre IH]; [reflexivity|].
    cbn in Hpre. apply andb_true_iff in Hpre as [He Hpre].
    cbn. destruct e; try discriminate He; cbn; exact (IH Hpre).
  - apply last_last.
Qed.

Lemma probes_only (pre : list Event) :
  forallb is_probe pre = true ->
  forallb (fun e => is_probe e || is_lookup e) pre = true /\
  filter is_lookup pre = [].
Proof.
  intros Hpre. split.
  - rewrite forallb_forall in *. intros e He. now rewrite (Hpre e He).
  - induction pre as [|e pre IH]; [reflexivity|].
    cbn in Hpre. apply andb_true_iff in Hpre as [He Hpre].
    cbn. destruct e; try discriminate He; cbn; exact (IH Hpre).
Qed.

(** The journal of a branch of [New] that resolves a binary after the
    probes [pre]. *)
Lemma resolve_shape (file : string) (mk : string -> ServiceValue) (os : OS)
      (s s1 : State) (pre : list Entry) :
  trace s1 = (trace s ++ pre)%list ->
  forallb is_probe (map ev pre) = true ->
  let l := map ev (since s (snd (resolve file mk os s1))) in
  forallb (fun e => is_probe e || is_lookup e) l = true /\
  exists r,
    filter is_lookup l = [EvLookPath file r] /\
    last l (EvSleep 0) = EvLookPath file r /\
    fst (resolve file mk os s1)
      = match r with
        | inl e => Err (WithStack (Os e))
        | inr cmd => Ok (mk cmd)
        end.
Proof.
  intros T P. cbv zeta.
  destruct (resolve_journal file mk os s1) as (x & Tx & Hx).
  assert (E : since s (snd (resolve file mk os s1)) = (pre ++ [x])%list)
    by (apply since_app; rewrite Tx, T, app_assoc; reflexivity).
  rewrite E, map_app. cbn [map]. rewrite Hx.
  destruct (probes_then_lookup (map ev pre)
              (EvLookPath file (path_lookup os (trace s1) file)) P eq_refl)
    as (H1 & H2 & H3).
  split; [exact H1|].
  exists (path_lookup os (trace s1) file).
  split; [exact H2|]. split; [exact H3|].
  rewrite resolve_eq. reflexivity.
Qed.

(** Whatever the host answers, the journal of [New] consists of probes
    followed by at most one [LookPath], which is then its last event; the
    result is read off that lookup, or is the detection error when there
    was none. *)
Lemma New_shape (name : string) (os : OS) (s : State) :
  let l := map ev (since s (snd (New name os s))) in
  forallb (fun e => is_probe e || is_lookup e) l = true /\
  ((exists file r,
       filter is_lookup l = [EvLookPath file r] /\
       last l (EvSleep 0) = EvLookPath file r /\
       match r with
       | inl e => fst (New name os s) = Err (WithStack (Os e))
       | inr cmd =>
           exists v, fst (New name os s) = Ok v /\
                     cmd_of v = cmd /\ name_of v = name /\ binary_of v = file
       end) \/
   (filter is_lookup l = [] /\
    fst (New name os s) = Err (Errorf "cannot detect service manager"))).
Proof.
  cbv zeta. rewrite New_first_match.
  destruct (isSystemd_probes os s) as (l1 & T1 & P1). revert T1.
  destruct (isSystemd os s) as [b1 s1]. cbn [snd]. intros T1.
  assert (Hbranch : forall file mk s' pre,
             trace s' = (trace s ++ pre)%list ->
             forallb is_probe (map ev pre) = true ->
             (forall cmd, cmd_of (mk cmd) = cmd /\ name_of (mk cmd) = name /\
                          binary_of (mk cmd) = file) ->
             let l := map ev (since s (snd (resolve file mk os s'))) in
             forallb (fun e => is_probe e || is_lookup e) l = true /\
             ((exists f r,
                  filter is_lookup l = [EvLookPath f r] /\
                  last l (EvSleep 0) = EvLookPath f r /\
                  match r with
                  | inl e => fst (resolve file mk os s') = Err (WithStack (Os e))
                  | inr cmd =>
                      exists v, fst (resolve file mk os s') = Ok v /\
                                cmd_of v = cmd /\ name_of v = name /\
                                binary_of v = f
                  end) \/
              (filter is_lookup l = [] /\
               fst (resolve file mk os s')
               = Err (Errorf "cannot detect service manager")))).
  { intros file mk s' pre T P Hmk.
    destruct (resolve_shape file mk os s s' pre T P) as (H1 & r & H2 & H3 & H4).
    cbv zeta. split; [exact H1|]. left. exists file, r.
    split; [exact H2|]. split; [exact H3|].
    destruct r as [e|cmd]; [exact H4|].
    exists (mk cmd). split; [exact H4|]. apply Hmk. }
  destruct b1.
  { apply (Hbranch _ _ s1 l1 T1 P1). intros cmd. repeat split. }
  destruct (isUpstart_probes os s1) as (l2 & T2 & P2). revert T2.
  destruct (isUpstart os s1) as [b2 s2]. cbn [snd]. intros T2.
  assert (T12 : trace s2 = (trace s ++ (l1 ++ l2))%list)
    by (rewrite T2, T1, app_assoc; reflexivity).
  assert (P12 : forallb is_probe (map ev (l1 ++ l2)) = true)
    by (rewrite map_app, forallb_app, P1, P2; reflexivity).
  destruct b2.
  { apply (Hbranch _ _ s2 _ T12 P12). intros cmd. repeat split. }
  destruct (isSysV_probes os s2) as (l3 & T3 & P3). revert T3.
  destruct (isSysV os s2) as [b3 s3]. cbn [snd]. intros T3.
  assert (T123 : trace s3 = (trace s ++ ((l1 ++ l2) ++ l3))%list)
    by (rewrite T3, T12, <- app_assoc; reflexivity).
  assert (P123 : forallb is_probe (map ev ((l1 ++ l2) ++ l3)) = true)
    by (rewrite map_app, forallb_app, P12, P3; reflexivity).
  destruct b3.
  { apply (Hbranch _ _ s3 _ T123 P123). intros cmd. repeat split. }
  cbn [fst snd]. rewrite (since_app _ _ _ T123).
  destruct (probes_only _ P123) as [H1 H2].
  split; [exact H1|]. right. split; [exact H2 | reflexivity].
Qed.

(** X5.  A failed [LookPath] is final: [New] returns that error (wrapped
    with a stack, the message unchanged) and tries nothing after it; it
    does not fall back to a later backend. *)
Theorem lookup_failure_is_final (name : string) (os : OS) (s : State)
        (file : string) (e : oserror) :
  In (EvLookPath file (inl e)) (map ev (since s (snd (New name os s)))) ->
  fst (New name os s) = Err (WithStack (Os e)) /\
  Error (WithStack (Os e)) = Error (Os e) /\
  last (map ev (since s (snd (New name os s)))) (EvSleep 0)
    = EvLookPath file (inl e).
Proof.
  intros Hin.
  destruct (New_shape name os s) as [_ [(f & r & Hf & Hlast & Hres) | (Hf & _)]].
  - assert (Hx : In (EvLookPath file (inl e)) [EvLookPath f r])
      by (rewrite <- Hf; apply filter_In; split; [exact Hin | reflexivity]).
    destruct Hx as [Hx|[]]. inversion Hx; subst f r.
    split; [exact Hres|]. split; [reflexivity | exact Hlast].
  - assert (Hx : In (EvLookPath file (inl e)) [])
      by (rewrite <- Hf; apply filter_In; split; [exact Hin | reflexivity]).
    destruct Hx.
Qed.

Lemma lookup_failure_is_final_witness :
  fs_stat no_systemctl_host (trace boot) "/usr/sbin/service" = None /\
  In (EvLookPath "systemctl" (inl ErrNotFound))
     (map ev (since boot (snd (New "agent" no_systemctl_host boot)))) /\
  fst (New "agent" no_systemctl_host boot) = Err (WithStack (Os ErrNotFound)) /\
  Error (WithStack (Os ErrNotFound)) = Error (Os ErrNotFound) /\
  last (map ev (since boot (snd (New "agent" no_systemctl_host boot)))) (EvSleep 0)
    = EvLookPath "systemctl" (inl ErrNotFound).
Proof.
  assert (Hin : In (EvLookPath "systemctl" (inl ErrNotFound))
                   (map ev (since boot (snd (New "agent" no_systemctl_host boot)))))
    by (right; left; reflexivity).
  split; [reflexivity|]. split; [exact Hin|].
  exact (lookup_failure_is_final "agent" no_systemctl_host boot "systemctl"
           ErrNotFound Hin).
Defined.

(** X6.  A handle returned by [New] carries the service name it was given
    and, as its command, the path that the one [LookPath] of the call (its
    last event) returned for the variant's binary: [systemctl], [initctl]
    or [service]. *)
Theorem handle_binds_resolved_binary (name : string) (os : OS) (s : State)
        (v : ServiceValue) :
  fst (New name os s) = Ok v ->
  name_of v = name /\
  filter is_lookup (map ev (since s (snd (New name os s))))
    = [EvLookPath (binary_of v) (inr (cmd_of v))] /\
  last (map ev (since s (snd (New name os s)))) (EvSleep 0)
    = EvLookPath (binary_of v) (inr (cmd_of v)).
Proof.
  intros Hok.
  destruct (New_shape name os s) as [_ [(f & r & Hf & Hlast & Hres) | (_ & Herr)]].
  - destruct r as [e|cmd].
    + rewrite Hres in Hok. discriminate Hok.
    + destruct Hres as (v' & Hv & Hcmd & Hname & Hbin).
      rewrite Hv in Hok. inversion Hok; subst v'.
      rewrite Hf, Hlast, Hcmd, Hbin. auto.
  - rewrite Herr in Hok. discriminate Hok.
Qed.

Lemma handle_binds_resolved_binary_witness :
  let v := OfSystemd (mkSystemd "/usr/bin/systemctl" "agent") in
  fst (New "agent" mixed_host boot) = Ok v /\
  name_of v = "agent" /\
  filter is_lookup (map ev (since boot (snd (New "agent" mixed_host boot))))
    = [EvLookPath (binary_of v) (inr (cmd_of v))] /\
  last (map ev (since boot (snd (New "agent" mixed_host boot)))) (EvSleep 0)
    = EvLookPath (binary_of v) (inr (cmd_of v)).
Proof.
  intros v. split; [reflexivity|].
  exact (handle_binds_resolved_binary "agent" mixed_host boot v eq_refl).
Defined.

(** X7.  [New] only probes and resolves: every event it journals is an
    [os.Stat], the one subprocess [/sbin/init --version], or a [LookPath],
    of which there is at most one.  It never runs a control command and
    never sleeps. *)
Theorem New_only_probes_and_resolves (name : string) (os : OS) (s : State) :
  let l := map ev (since s (snd (New name os s))) in
  (forall e, In e l ->
     (exists p r, e = EvStat p r) \/
     (exists out err, e = EvOutput "/sbin/init" ["--version"] out err) \/
     (exists f r, e = EvLookPath f r)) /\
  (length (filter is_lookup l) <= 1)%nat.
Proof.
  cbv zeta.
  destruct (New_shape name os s) as [Hall Hres]. split.
  - intros e He. rewrite forallb_forall in Hall. specialize (Hall e He).
    destruct e as [p r|f r|cmd args out err|cmd args out err|d];
      cbn in Hall; try discriminate Hall.
    + left. eauto.
    + right; right. eauto.
    + right; left. destruct args as [|arg [|arg' args]]; try discriminate Hall.
      rewrite orb_false_r in Hall. apply andb_true_iff in Hall as [Hc Ha].
      apply String.eqb_eq in Hc, Ha. subst. eauto.
  - destruct Hres as [(f & r & Hf & _) | (Hf & _)]; rewrite Hf; simpl; lia.
Qed.

(** X8.  Upstart comes before SysV: where the systemd marker is absent
    and the upstart bridge binary exists, [New] stats those two, resolves
    [initctl] and returns the upstart handle (or the resolution error);
    the SysV service binary is never looked at. *)
Theorem detection_prefers_upstart_to_sysV (name : string) (os : OS) (s : State) :
  fs_stat os (trace s) "/run/systemd/system" <> None ->
  fs_stat os (trace (after_stat os s "/run/systemd/system"))
          "/sbin/upstart-udev-bridge" = None ->
  exists e r,
    map ev (since s (snd (New name os s)))
      = [EvStat "/run/systemd/system" (Some e);
         EvStat "/sbin/upstart-udev-bridge" None;
         EvLookPath "initctl" r] /\
    fst (New name os s) =
      match r with
      | inl err => Err (WithStack (Os err))
      | inr cmd => Ok (OfUpstart (mkUpstart cmd name))
      end.
Proof.
  intros Hsys Hbridge. revert Hbridge.
  unfold New, isSystemd, isUpstart, bind, after_stat, os_Stat, exec_LookPath, ret.
  destruct (fs_stat os (trace s) "/run/systemd/system") as [e|];
    [clear Hsys | now elim Hsys].
  cbn [fst snd]. intros Hbridge. rewrite Hbridge. cbn [fst snd].
  remember (path_lookup os _ "initctl") as r eqn:Er. clear Er.
  exists e, r.
  destruct r as [err|cmd]; cbn [fst snd]; journal_of_New; split; reflexivity.
Qed.

Lemma detection_prefers_upstart_to_sysV_witness :
  fs_stat upstart_host (trace boot) "/run/systemd/system" <> None /\
  fs_stat upstart_host (trace (after_stat upstart_host boot "/run/systemd/system"))
          "/sbin/upstart-udev-bridge" = None /\
  fs_stat upstart_host (trace boot) "/usr/sbin/service" = None /\
  exists e r,
    map ev (since boot (snd (New "agent" upstart_host boot)))
      = [EvStat "/run/systemd/system" (Some e);
         EvStat "/sbin/upstart-udev-bridge" None;
         EvLookPath "initctl" r] /\
    fst (New "agent" upstart_host boot) =
      match r with
      | inl err => Err (WithStack (Os err))
      | inr cmd => Ok (OfUpstart (mkUpstart cmd "agent"))
      end.
Proof.
  assert (H1 : fs_stat upstart_host (trace boot) "/run/systemd/system" <> None)
    by (simpl; discriminate).
  split; [exact H1|]. split; [reflexivity|]. split; [reflexivity|].
  exact (detection_prefers_upstart_to_sysV "agent" upstart_host boot H1 eq_refl).
Defined.

Lemma prefix_split (p s : string) :
  String.prefix p s = true -> exists b, s = p ++ b.
Proof.
  revert s. induction p as [|c p IH]; intros s H.
  - exists s. reflexivity.
  - destruct s as [|d s]; [discriminate H|]. simpl in H.
    destruct (ascii_dec c d) as [->|]; [|discriminate H].
    destruct (IH s H) as [b ->]. exists b. reflexivity.
Qed.

Lemma Contains_step (c : ascii) (s sub : string) :
  Contains (String c s) sub = String.prefix sub (String c s) || Contains s sub.
Proof. reflexivity. Qed.

(** [Contains] finds the substring wherever it stands. *)
Lemma Contains_iff (s sub : string) :
  Contains s sub = true <-> exists a b, s = a ++ sub ++ b.
Proof.
  split.
  - induction s as [|c s IH].
    + intros H. unfold Contains in H. rewrite orb_false_r in H.
      destruct (prefix_split _ _ H) as [b Hb].
      destruct sub; [|discriminate Hb]. exists "", "". reflexivity.
    + rewrite Contains_step. intros H. apply orb_true_iff in H as [H|H].
      * destruct (prefix_split _ _ H) as [b Hb]. exists "", b. exact Hb.
      * destruct (IH H) as (a & b & ->). exists (String c a), b. reflexivity.
  - intros (a & b & ->). induction a as [|c a IH].
    + change ("" ++ sub ++ b) with (sub ++ b).
      apply Contains_prefix, prefix_append.
    + change (String c a ++ sub ++ b) with (String c (a ++ sub ++ b)).
      rewrite Contains_step, IH. apply orb_true_r.
Qed.

(** X9.  In the fallback of [isUpstart] (no bridge binary, [/sbin/init]
    exists, [init --version] returned without error), upstart is detected
    exactly when [init (upstart] occurs somewhere in the standard output,
    whatever stands before or after it. *)
Theorem isUpstart_fallback_matches_anywhere (os : OS) (s : State) (out : string) :
  let s1 := after_stat os s "/sbin/upstart-udev-bridge" in
  let s2 := after_stat os s1 "/sbin/init" in
  fs_stat os (trace s) "/sbin/upstart-udev-bridge" <> None ->
  fs_stat os (trace s1) "/sbin/init" = None ->
  proc_output os (trace s2) "/sbin/init" ["--version"] = (out, None) ->
  (fst (isUpstart os s) = true <->
   exists a b, out = a ++ "init (upstart" ++ b).
Proof.
  intros s1 s2 Hbridge Hinit Hout.
  pose proof (isUpstart_eq os s) as E. cbv zeta in E. fold s1 s2 in E.
  rewrite E. clear E. unfold exists_at. rewrite Hinit, Hout.
  destruct (fs_stat os (trace s) "/sbin/upstart-udev-bridge");
    [|now elim Hbridge].
  cbn [fst snd]. apply Contains_iff.
Qed.

Lemma isUpstart_fallback_matches_anywhere_witness :
  let os := upstart_init_host in
  let s1 := after_stat os boot "/sbin/upstart-udev-bridge" in
  let s2 := after_stat os s1 "/sbin/init" in
  fs_stat os (trace boot) "/sbin/upstart-udev-bridge" <> None /\
  fs_stat os (trace s1) "/sbin/init" = None /\
  proc_output os (trace s2) "/sbin/init" ["--version"]
    = ("init (upstart 1.12.1)", None) /\
  (fst (isUpstart os boot) = true <->
   exists a b, "init (upstart 1.12.1)" = a ++ "init (upstart" ++ b).
Proof.
  intros os s1 s2.
  assert (H1 : fs_stat os (trace boot) "/sbin/upstart-udev-bridge" <> None)
    by (simpl; discriminate).
  split; [exact H1|]. split; [reflexivity|]. split; [reflexivity|].
  exact (isUpstart_fallback_matches_anywhere os boot "init (upstart 1.12.1)"
           H1 eq_refl eq_refl).
Defined.

(** X10.  [New] fails with [cannot detect service manager] exactly when
    all three checks, made one after the other, fail; no other error of
    [New] is built by [Errorf]. *)
Theorem detection_error_iff (name : string) (os : OS) (s : State) :
  let s1 := snd (isSystemd os s) in
  let s2 := snd (isUpstart os s1) in
  (fst (New name os s) = Err (Errorf "cannot detect service manager") <->
   fst (isSystemd os s) = false /\
   fst (isUpstart os s1) = false /\
   fst (isSysV os s2) = false) /\
  (forall m, fst (New name os s) = Err (Errorf m) ->
             m = "cannot detect service manager").
Proof.
  cbv zeta. rewrite New_first_match.
  destruct (isSystemd os s) as [[|] s1]; cbn [fst snd].
  - rewrite resolve_eq. cbn [fst].
    destruct (path_lookup os (trace s1) "systemctl"); split;
      try (split; [discriminate | intros (H & _); discriminate H]);
      intros m H; discriminate H.
  - destruct (isUpstart os s1) as [[|] s2]; cbn [fst snd].
    + rewrite resolve_eq. cbn [fst].
      destruct (path_lookup os (trace s2) "initctl"); split;
        try (split; [discriminate | intros (_ & H & _); discriminate H]);
        intros m H; discriminate H.
    + destruct (isSysV os s2) as [[|] s3]; cbn [fst snd].
      * rewrite resolve_eq. cbn [fst].
        destruct (path_lookup os (trace s3) "service"); split;
          try (split; [discriminate | intros (_ & _ & H); discriminate H]);
          intros m H; discriminate H.
      * split; [split; auto|]. intros m H. inversion H. reflexivity.
Qed.

(** X11.  The variant of the handle tells which check selected it: a
    systemd handle means the systemd check succeeded; an upstart handle,
    that the systemd check failed and the upstart check succeeded; a SysV
    handle, that both failed and the SysV check succeeded. *)
Theorem handle_variant_reflects_checks (name : string) (os : OS) (s : State)
        (v : ServiceValue) :
  let s1 := snd (isSystemd os s) in
  let s2 := snd (isUpstart os s1) in
  fst (New name os s) = Ok v ->
  match v with
  | OfSystemd _ => fst (isSystemd os s) = true
  | OfUpstart _ =>
      fst (isSystemd os s) = false /\ fst (isUpstart os s1) = true
  | OfSysV _ =>
      fst (isSystemd os s) = false /\ fst (isUpstart os s1) = false /\
      fst (isSysV os s2) = true
  end.
Proof.
  cbv zeta. rewrite New_first_match.
  destruct (isSystemd os s) as [[|] s1]; cbn [fst snd].
  - rewrite resolve_eq. cbn [fst].
    destruct (path_lookup os (trace s1) "systemctl"); intros H; inversion H.
    reflexivity.
  - destruct (isUpstart os s1) as [[|] s2]; cbn [fst snd].
    + rewrite resolve_eq. cbn [fst].
      destruct (path_lookup os (trace s2) "initctl"); intros H; inversion H.
      auto.
    + destruct (isSysV os s2) as [[|] s3]; cbn [fst snd].
      * rewrite resolve_eq. cbn [fst].
        destruct (path_lookup os (trace s3) "service"); intros H; inversion H.
        auto.
      * intros H. discriminate H.
Qed.

Lemma handle_variant_reflects_checks_witness :
  let v := OfUpstart (mkUpstart "/usr/bin/initctl" "agent") in
  let s1 := snd (isSystemd upstart_host boot) in
  fst (New "agent" upstart_host boot) = Ok v /\
  fst (isSystemd upstart_host boot) = false /\
  fst (isUpstart upstart_host s1) = true.
Proof.
  intros v s1. split; [reflexivity|].
  exact (handle_variant_reflects_checks "agent" upstart_host boot v eq_refl).
Defined.

(** X12.  [New] does not look at the service name: called with another
    name on the same host it journals the same calls, fails with the same
    error, or succeeds with the same variant and command bound to the
    other name.  That [New] succeeds says nothing about the service. *)
Theorem New_ignores_name (n1 n2 : string) (os : OS) (s : State) :
  snd (New n1 os s) = snd (New n2 os s) /\
  (forall e, fst (New n1 os s) = Err e -> fst (New n2 os s) = Err e) /\
  (forall v, fst (New n1 os s) = Ok v ->
     exists v', fst (New n2 os s) = Ok v' /\
                binary_of v' = binary_of v /\ cmd_of v' = cmd_of v /\
                name_of v' = n2).
Proof.
  rewrite !New_first_match.
  destruct (isSystemd os s) as [[|] s1].
  - rewrite !resolve_eq. cbn [fst snd]. split; [reflexivity|].
    destruct (path_lookup os (trace s1) "systemctl"); split;
      intros x H; inversion H; eauto.
  - destruct (isUpstart os s1) as [[|] s2].
    + rewrite !resolve_eq. cbn [fst snd]. split; [reflexivity|].
      destruct (path_lookup os (trace s2) "initctl"); split;
        intros x H; inversion H; eauto.
    + destruct (isSysV os s2) as [[|] s3].
      * rewrite !resolve_eq. cbn [fst snd]. split; [reflexivity|].
        destruct (path_lookup os (trace s3) "service"); split;
          intros x H; inversion H; eauto.
      * cbn [fst snd]. split; [reflexivity|]. split; intros x H; inversion H; eauto.
Qed.

(** X13.  [New] followed by [Start] or [Stop] on the handle it returned
    spawns exactly one subprocess, whose command is the path the
    [LookPath] of [New] returned (not the bare name of the binary) and
    whose arguments are the subcommand and the name given to [New], the
    name first for SysV. *)
Theorem New_then_operate (name : string) (os : OS) (s : State)
        (v : ServiceValue) (o : Op) :
  let s' := snd (New name os s) in
  fst (New name os s) = Ok v ->
  o <> OpRestart ->
  exists path,
    last (map ev (since s s')) (EvSleep 0)
      = EvLookPath (binary_of v) (inr path) /\
    spawned (since s' (snd (perform o v os s')))
      = [path :: match v with
                 | OfSysV _ => [name; subcommand o]
                 | _ => [subcommand o; name]
                 end].
Proof.
  intros s' Hok Ho. exists (cmd_of v).
  destruct (New_shape name os s) as [_ [(f & r & _ & Hlast & Hres) | (_ & Herr)]];
    [|rewrite Herr in Hok; discriminate Hok].
  destruct r as [e|cmd]; [rewrite Hres in Hok; discriminate Hok|].
  destruct Hres as (v' & Hv & Hcmd & Hname & Hbin).
  rewrite Hv in Hok. inversion Hok; subst v'. clear Hok.
  split; [fold s' in Hlast; rewrite Hlast, Hcmd, Hbin; reflexivity|].
  rewrite <- Hname. generalize s'. clear - Ho. intros s.
  rewrite (perform_eq v o).
  destruct o; try (now elim Ho); destruct v; cbv zeta;
    rewrite run_err_eq; cbn [snd]; rewrite since_after_combined; reflexivity.
Qed.

Lemma New_then_operate_witness :
  let v := OfSysV (mkSysV "/usr/bin/service" "agent") in
  let s' := snd (New "agent" stop_fails_host boot) in
  fst (New "agent" stop_fails_host boot) = Ok v /\
  OpStop <> OpRestart /\
  exists path,
    last (map ev (since boot s')) (EvSleep 0)
      = EvLookPath (binary_of v) (inr path) /\
    spawned (since s' (snd (perform OpStop v stop_fails_host s')))
      = [path :: ["agent"; subcommand OpStop]].
Proof.
  intros v s'.
  assert (Ho : OpStop <> OpRestart) by discriminate.
  split; [reflexivity|]. split; [exact Ho|].
  exact (New_then_operate "agent" stop_fails_host boot v OpStop eq_refl Ho).
Defined.
